(** * gensim.corpora.indexedcorpus: random access to a corpus through an offset index

    A shallow embedding of [IndexedCorpus] (gensim/corpora/indexedcorpus.py):
    the constructor that loads a pickled index, the class method
    [saveIndexedCorpus] that writes a corpus and pickles the offsets the
    serializer reports, and [__getitem__], which turns a document number
    into an offset and hands it to the inheriting class's [docbyoffset]. *)

From stdpp Require Import gmap strings list pretty.
From Stdlib Require Import ZArith Lia Ascii.

Local Open Scope Z_scope.

(** ** Python values and exceptions *)

(** The objects that travel through the index: what [saveCorpus] returns,
    what is pickled, what [self.index] holds.  Python is untyped, so the
    index is whatever object came out of the pickle. *)
#[warnings="-register-all"]
Inductive pyval : Type :=
| PyNone
| PyInt (z : Z)
| PyStr (s : string)
| PyList (l : list pyval).

(** [v is None] *)
Definition is_None (v : pyval) : bool :=
  match v with PyNone => true | _ => false end.

Inductive exn_class : Type :=
| IOError
| UnpicklingError
| TypeError
| IndexError
| RuntimeError
| NotImplementedError.

Record exn : Type := Exn { exn_cls : exn_class; exn_msg : string }.

Inductive result (A : Type) : Type :=
| Ok (a : A)
| Raise (e : exn).
Arguments Ok {A} a.
Arguments Raise {A} e.

(** ** Computations with state and exceptions

    A Python call is a function of the current state that returns either
    a value or a raised exception, with the state it left behind.  State
    changes made before an exception is raised stay. *)
Definition M (S A : Type) : Type := S -> result A * S.

Definition ret {S A} (a : A) : M S A := fun s => (Ok a, s).

Definition raise {S A} (e : exn) : M S A := fun s => (Raise e, s).

Definition bind {S A B} (m : M S A) (k : A -> M S B) : M S B :=
  fun s =>
    match m s with
    | (Ok a, s') => k a s'
    | (Raise e, s') => (Raise e, s')
    end.

(** [try: body except: handler], with a bare [except] that catches
    everything. *)
Definition try_except {S A} (body : M S A) (handler : exn -> M S A) : M S A :=
  fun s =>
    match body s with
    | (Ok a, s') => (Ok a, s')
    | (Raise e, s') => handler e s'
    end.

Declare Scope py_scope.
Delimit Scope py_scope with py.
Notation "x <- c ;; k" := (bind c (fun x => k))
  (at level 100, c at next level, right associativity) : py_scope.
Notation "c ;;; k" := (bind c (fun _ => k))
  (at level 100, right associativity) : py_scope.

(** ** Sequence indexing

    [l[i]] for a Python list: a negative [i] counts from the end, and what
    is still outside the list raises [IndexError]. *)
Definition list_getitem {A} (l : list A) (i : Z) : result A :=
  let n := Z.of_nat (length l) in
  let j := if i <? 0 then i + n else i in
  if (j <? 0) || (n <=? j)
  then Raise (Exn IndexError "list index out of range")
  else match l !! Z.to_nat j with
       | Some x => Ok x
       | None => Raise (Exn IndexError "list index out of range")
       end.

Definition str_getitem (s : string) (i : Z) : result string :=
  match list_getitem (String.list_ascii_of_string s) i with
  | Ok c => Ok (String c EmptyString)
  | Raise _ => Raise (Exn IndexError "string index out of range")
  end.

(** [v[i]] for an integer [i]. *)
Definition py_getitem (v : pyval) (i : Z) : result pyval :=
  match v with
  | PyList l => list_getitem l i
  | PyStr s =>
      match str_getitem s i with
      | Ok c => Ok (PyStr c)
      | Raise e => Raise e
      end
  | PyInt _ => Raise (Exn TypeError "'int' object is unsubscriptable")
  | PyNone => Raise (Exn TypeError "'NoneType' object is unsubscriptable")
  end.

(** ** The world outside the interpreter: files and the log *)

(** A file holds a Python 2 [str], that is, a byte string. The store is
    flat: every path can be written. *)
Record World : Type := { files : gmap string string; log : list string }.

Definition write_file (fname data : string) (w : World) : World :=
  {| files := <[fname := data]> (files w); log := log w |}.

(** [logging.info(msg)] *)
Definition logging_info (msg : string) : M World unit :=
  fun w => (Ok tt, {| files := files w; log := (log w ++ [msg])%list |}).

Section IndexedCorpus.

(** Documents are opaque to this module. *)
Context {Doc : Type}.
(** The attributes an inheriting class keeps on the object next to
    [index] (typically the name of the storage file). *)
Context {Attrs : Type}.

(** The object serialization ([cPickle]) the index file is written with:
    [dumps] produces the file content, [loads] reads it back or raises. *)
Variable dumps : pyval -> string.
Variable loads : string -> result pyval.

(** Modelled from the spec: [utils.pickle(obj, fname)], from gensim/utils.py
    which is not among the sources.  It serializes [obj] to the file
    [fname], replacing what was there. *)
Definition pickle (obj : pyval) (fname : string) : M World unit :=
  fun w => (Ok tt, write_file fname (dumps obj) w).

(** Modelled from the spec: [utils.unpickle(fname)], from gensim/utils.py
    which is not among the sources.  It deserializes the file [fname]; a
    missing file and content that does not deserialize both raise. *)
Definition unpickle (fname : string) : M World pyval :=
  fun w =>
    match files w !! fname with
    | None =>
        (Raise (Exn IOError ("[Errno 2] No such file or directory: '" +:+ fname +:+ "'")), w)
    | Some data => (loads data, w)
    end.

(** The object [self]: the base class sets [index], the rest belongs to
    the inheriting class. *)
Record IndexedCorpus : Type := { index : pyval; attrs : Attrs }.

Definition State : Type := IndexedCorpus * World.

(** What [IndexedCorpus] expects of the class that inherits from it. *)
Record Serializer : Type := {
  __name__ : string;
  saveCorpus : string -> list Doc -> M World pyval;
  docbyoffset : pyval -> M State Doc
}.

(** Run a computation on the world from inside a method. *)
Definition in_world {A} (m : M World A) : M State A :=
  fun st => let (r, w') := m (snd st) in (r, (fst st, w')).

(** [self.index] *)
Definition get_index : M State pyval :=
  fun st => (Ok (index (fst st)), st).

(** [self.index = v] *)
Definition set_index (v : pyval) : M State unit :=
  fun st => (Ok tt, ({| index := v; attrs := attrs (fst st) |}, snd st)).

Local Open Scope py_scope.

(** [IndexedCorpus.__init__(self, fname, index_fname=None)]: the index is
    loaded inside a [try] whose bare [except] sets [self.index = None]. *)
Definition __init__ (fname : string) (index_fname : option string) : M State unit :=
  let index_fname :=
    match index_fname with
    | None => fname +:+ ".index"
    | Some p => p
    end in
  try_except
    (v <- in_world (unpickle index_fname) ;;
     set_index v ;;;
     in_world (logging_info ("loaded corpus index from " +:+ index_fname)))
    (fun _ => set_index PyNone).

(** [IndexedCorpus.saveIndexedCorpus(serializer, fname, corpus,
    index_fname=None)], a class method: [serializer] is the class it is
    called on. *)
Definition saveIndexedCorpus (serializer : Serializer) (fname : string)
    (corpus : list Doc) (index_fname : option string) : M World unit :=
  let index_fname :=
    match index_fname with
    | None => fname +:+ ".index"
    | Some p => p
    end in
  offsets <- saveCorpus serializer fname corpus ;;
  if is_None offsets
  then raise (Exn NotImplementedError
                ("called saveIndexedCorpus on class " +:+ __name__ serializer
                 +:+ " which             doesn't support indexing!"))
  else
    (logging_info ("saving " +:+ __name__ serializer +:+ " index to " +:+ index_fname) ;;;
     pickle offsets index_fname).

(** [IndexedCorpus.__getitem__(self, docno)]; [self.docbyoffset] is the
    method of the inheriting class. *)
Definition __getitem__ (serializer : Serializer) (docno : Z) : M State Doc :=
  idx <- get_index ;;
  if is_None idx
  then raise (Exn RuntimeError "cannot call corpus[docid] without an index")
  else
    match py_getitem idx docno with
    | Ok offset => docbyoffset serializer offset
    | Raise e => raise e
    end.

End IndexedCorpus.

Arguments IndexedCorpus : clear implicits.
Arguments State : clear implicits.
Arguments Serializer : clear implicits.

(** ** A concrete instance

    A line-oriented corpus format in the style of the classes that inherit
    from [IndexedCorpus], and a small self-delimiting object format in the
    place of [cPickle].  The instance is what the examples below run on. *)
Module LineCorpus.

(** *** The object format: [n] is None, [i<decimal>e] an integer,
    [<length>:<bytes>] a string, [l<items>e] a list. *)
Fixpoint dumps (v : pyval) : string :=
  match v with
  | PyNone => "n"
  | PyInt z => "i" +:+ pretty z +:+ "e"
  | PyStr s => pretty (String.length s) +:+ ":" +:+ s
  | PyList l => "l" +:+ String.concat "" (map dumps l) +:+ "e"
  end.

Inductive mode : Type :=
| Value
| Sign
| Digits (neg : bool) (acc : Z)
| Len (acc : nat)
| Bytes (remaining : nat) (rev_acc : list Ascii.ascii).

(** The reader is a machine that eats one character at a time:
    [frames] are the lists still open (innermost first, items reversed),
    [top] the finished object. *)
Record reader : Type := {
  frames : list (list pyval);
  rmode : mode;
  top : option pyval
}.

Definition digit_of (c : Ascii.ascii) : option Z :=
  let n := Z.of_N (Ascii.N_of_ascii c) in
  if (48 <=? n) && (n <=? 57) then Some (n - 48) else None.

Definition emit (v : pyval) (r : reader) : option reader :=
  match frames r with
  | [] => Some {| frames := []; rmode := Value; top := Some v |}
  | f :: fs => Some {| frames := (v :: f) :: fs; rmode := Value; top := None |}
  end.

Definition with_mode (m : mode) (r : reader) : option reader :=
  Some {| frames := frames r; rmode := m; top := top r |}.

Definition step (r : reader) (c : Ascii.ascii) : option reader :=
  match top r with
  | Some _ => None
  | None =>
      match rmode r with
      | Value =>
          if Ascii.eqb c "n"%char then emit PyNone r
          else if Ascii.eqb c "i"%char then with_mode Sign r
          else if Ascii.eqb c "l"%char
          then Some {| frames := [] :: frames r; rmode := Value; top := None |}
          else if Ascii.eqb c "e"%char
          then match frames r with
               | [] => None
               | f :: fs => emit (PyList (rev f)) {| frames := fs; rmode := Value; top := None |}
               end
          else match digit_of c with
               | Some d => with_mode (Len (Z.to_nat d)) r
               | None => None
               end
      | Sign =>
          if Ascii.eqb c "-"%char then with_mode (Digits true 0) r
          else match digit_of c with
               | Some d => with_mode (Digits false d) r
               | None => None
               end
      | Digits neg acc =>
          if Ascii.eqb c "e"%char then emit (PyInt (if neg then - acc else acc)) r
          else match digit_of c with
               | Some d => with_mode (Digits neg (10 * acc + d)) r
               | None => None
               end
      | Len acc =>
          if Ascii.eqb c ":"%char
          then match acc with
               | O => emit (PyStr "") r
               | S _ => with_mode (Bytes acc []) r
               end
          else match digit_of c with
               | Some d => with_mode (Len (10 * acc + Z.to_nat d)) r
               | None => None
               end
      | Bytes k acc =>
          match k with
          | 1%nat => emit (PyStr (String.string_of_list_ascii (rev (c :: acc)))) r
          | _ => with_mode (Bytes (pred k) (c :: acc)) r
          end
      end
  end.

Fixpoint run (r : reader) (s : string) : option reader :=
  match s with
  | EmptyString => Some r
  | String c s' =>
      match step r c with
      | Some r' => run r' s'
      | None => None
      end
  end.

Definition loads (data : string) : result pyval :=
  match run {| frames := []; rmode := Value; top := None |} data with
  | Some {| top := Some v |} => Ok v
  | _ => Raise (Exn UnpicklingError "could not read the object")
  end.

(** *** The corpus format: one document per line. *)

(** Write the documents from position [pos] on; report where each starts. *)
Fixpoint write_lines (pos : Z) (corpus : list string) : list pyval * string :=
  match corpus with
  | [] => ([], EmptyString)
  | doc :: rest =>
      let line := doc +:+ String "010"%char EmptyString in
      let (offsets, data) := write_lines (pos + Z.of_nat (String.length line)) rest in
      (PyInt pos :: offsets, line +:+ data)
  end.

(** The text up to the end of the line. *)
Fixpoint readline (s : string) : string :=
  match s with
  | EmptyString => EmptyString
  | String c s' => if Ascii.eqb c "010"%char then EmptyString else String c (readline s')
  end.

Fixpoint seek (n : nat) (s : string) : string :=
  match n, s with
  | O, _ => s
  | S n', String _ s' => seek n' s'
  | S _, EmptyString => EmptyString
  end.

Definition save_lines (fname : string) (corpus : list string) : M World pyval :=
  fun w =>
    let (offsets, data) := write_lines 0 corpus in
    (Ok (PyList offsets), write_file fname data w).

(** A format that writes the corpus and reports nothing: [saveCorpus]
    falls off its end and so returns None. *)
Definition save_lines_no_offsets (fname : string) (corpus : list string) : M World pyval :=
  fun w =>
    let (_, data) := write_lines 0 corpus in
    (Ok PyNone, write_file fname data w).

(** The object keeps the name of its storage file. *)
Definition read_at (offset : pyval) : M (State string) string :=
  fun st =>
    match offset with
    | PyInt z =>
        if z <? 0 then (Raise (Exn IOError "Invalid argument"), st)
        else match files (snd st) !! attrs (fst st) with
             | Some data => (Ok (readline (seek (Z.to_nat z) data)), st)
             | None =>
                 (Raise (Exn IOError ("[Errno 2] No such file or directory: '"
                                      +:+ attrs (fst st) +:+ "'")), st)
             end
    | _ => (Raise (Exn TypeError "an integer is required"), st)
    end.

Definition serializer : Serializer string string :=
  {| __name__ := "LineCorpus"; saveCorpus := save_lines; docbyoffset := read_at |}.

Definition unindexed : Serializer string string :=
  {| __name__ := "PlainCorpus"; saveCorpus := save_lines_no_offsets; docbyoffset := read_at |}.

Definition empty_world : World := {| files := ∅; log := [] |}.

(** The object as the inheriting class's constructor hands it to
    [IndexedCorpus.__init__]. *)
Definition fresh (fname : string) : IndexedCorpus string :=
  {| index := PyNone; attrs := fname |}.

Definition corpus3 : list string := ["1:0.5"; "0:1.0 1:2.0"; "2:7.0"].

(** The world after [LineCorpus.saveIndexedCorpus('c.txt', corpus3)]. *)
Definition saved3 : World :=
  snd (saveIndexedCorpus dumps serializer "c.txt" corpus3 None empty_world).

(** [LineCorpus('c.txt')] in that world. *)
Definition handle3 : State string :=
  snd (__init__ loads "c.txt" None (fresh "c.txt", saved3)).

(** A world whose index file does not hold a serialized object. *)
Definition corrupt : World :=
  write_file "c.txt.index" "l<<not an index>>" saved3.

(** The saved world with other content in the index file. *)
Definition with_index_file (data : string) : World :=
  write_file "c.txt.index" data saved3.

(** The saved world after the storage file was emptied. *)
Definition storage_emptied : World :=
  write_file "c.txt" EmptyString saved3.

(** A format whose [saveCorpus] cannot open the storage file. *)
Definition save_denied (fname : string) (corpus : list string) : M World pyval :=
  raise (Exn IOError ("[Errno 13] Permission denied: '" +:+ fname +:+ "'")).

Definition denied : Serializer string string :=
  {| __name__ := "DeniedCorpus"; saveCorpus := save_denied; docbyoffset := read_at |}.

End LineCorpus.

(** ** Names used in the statements *)

(** The index file a call with these arguments is about: the explicit path
    when there is one, the storage path with [.index] appended otherwise. *)
Definition index_path (fname : string) (index_fname : option string) : string :=
  match index_fname with
  | None => fname +:+ ".index"
  | Some p => p
  end.

(** A handle's life after construction: one lookup after the other, each
    on the state the previous one left, whatever it returned or raised. *)
Fixpoint lookups {Doc Attrs} (serializer : Serializer Doc Attrs) (docnos : list Z)
    (st : State Attrs) : State Attrs :=
  match docnos with
  | [] => st
  | docno :: rest => lookups serializer rest (snd (__getitem__ serializer docno st))
  end.

(** The inheriting class's [docbyoffset] does not assign [self.index]. *)
Definition decode_keeps_index {Doc Attrs} (serializer : Serializer Doc Attrs) : Prop :=
  forall offset st,
    index (fst (snd (docbyoffset serializer offset st))) = index (fst st).

(** The world a save leaves behind when the serializer, having left [w1],
    reported [offsets]: one more line in the log, and the index file. *)
Definition saved {Doc Attrs} (dumps : pyval -> string) (serializer : Serializer Doc Attrs)
    (path : string) (offsets : pyval) (w1 : World) : World :=
  write_file path (dumps offsets)
    {| files := files w1;
       log := (log w1 ++ ["saving " +:+ __name__ serializer +:+ " index to " +:+ path])%list |}.

(** [e] is an instance of the exception class [c]. *)
Definition raises {A} (r : result A) (c : exn_class) : Prop :=
  match r with
  | Ok _ => False
  | Raise e => exn_cls e = c
  end.

(** The inheriting class's [docbyoffset] leaves the object and the world
    as it found them. *)
Definition decode_reads_only {Doc Attrs} (serializer : Serializer Doc Attrs) : Prop :=
  forall offset st, snd (docbyoffset serializer offset st) = st.

(** ** Sequence indexing *)

Lemma list_getitem_inside {A} (l : list A) (i : Z) :
  0 <= i < Z.of_nat (length l) ->
  exists x, l !! Z.to_nat i = Some x /\ list_getitem l i = Ok x.
Proof.
  intros Hi. unfold list_getitem.
  destruct (Z.ltb_spec i 0) as [Hneg | _]; [lia |].
  destruct (Z.ltb_spec i 0) as [Hneg | _]; [lia |].
  destruct (Z.leb_spec (Z.of_nat (length l)) i) as [Hge | _]; [lia |].
  destruct (lookup_lt_is_Some_2 l (Z.to_nat i)) as [x Hx]; [lia |].
  exists x. simpl. now rewrite Hx.
Qed.

Lemma list_getitem_wraps {A} (l : list A) (i : Z) :
  - Z.of_nat (length l) <= i < 0 ->
  exists x, l !! Z.to_nat (Z.of_nat (length l) + i) = Some x /\ list_getitem l i = Ok x.
Proof.
  intros Hi. unfold list_getitem.
  destruct (Z.ltb_spec i 0) as [_ | Hpos]; [| lia].
  destruct (Z.ltb_spec (i + Z.of_nat (length l)) 0) as [Hneg | _]; [lia |].
  destruct (Z.leb_spec (Z.of_nat (length l)) (i + Z.of_nat (length l))) as [Hge | _]; [lia |].
  replace (i + Z.of_nat (length l)) with (Z.of_nat (length l) + i) by lia.
  destruct (lookup_lt_is_Some_2 l (Z.to_nat (Z.of_nat (length l) + i))) as [x Hx]; [lia |].
  exists x. simpl. now rewrite Hx.
Qed.

Lemma list_getitem_outside {A} (l : list A) (i : Z) :
  i < - Z.of_nat (length l) \/ Z.of_nat (length l) <= i ->
  list_getitem l i = Raise (Exn IndexError "list index out of range").
Proof.
  intros Hi. unfold list_getitem.
  destruct (Z.ltb_spec i 0) as [Hneg | Hpos].
  - destruct (Z.ltb_spec (i + Z.of_nat (length l)) 0) as [_ | Hok]; [reflexivity | lia].
  - destruct (Z.ltb_spec i 0) as [Hneg | _]; [lia |].
    destruct (Z.leb_spec (Z.of_nat (length l)) i) as [_ | Hlt]; [reflexivity | lia].
Qed.

Lemma string_length_append (s t : string) :
  String.length (s +:+ t) = (String.length s + String.length t)%nat.
Proof.
  induction s as [| c s IH]; simpl; [reflexivity | now rewrite IH].
Qed.

(** ** The three methods, step by step *)

Section Facts.

Context {Doc Attrs : Type}.
Variable dumps : pyval -> string.
Variable loads : string -> result pyval.

Implicit Types (ser : Serializer Doc Attrs) (self : IndexedCorpus Attrs).
Implicit Types (w : World) (st : State Attrs) (D : list Doc).
Implicit Types (l : list pyval) (i : Z) (fname : string).

Lemma getitem_no_index ser self w i :
  index self = PyNone ->
  __getitem__ ser i (self, w)
  = (Raise (Exn RuntimeError "cannot call corpus[docid] without an index"), (self, w)).
Proof.
  intros Hidx. unfold __getitem__, bind, get_index, raise. simpl.
  now rewrite Hidx.
Qed.

Lemma getitem_list ser self w l i :
  index self = PyList l ->
  __getitem__ ser i (self, w)
  = match list_getitem l i with
    | Ok offset => docbyoffset ser offset (self, w)
    | Raise e => (Raise e, (self, w))
    end.
Proof.
  intros Hidx. unfold __getitem__, bind, get_index, raise. simpl.
  rewrite Hidx. simpl. now destruct (list_getitem l i).
Qed.

(** A lookup writes nothing of its own: it stops before [docbyoffset]
    with the state as it found it, or it is the call of [docbyoffset]. *)
Lemma getitem_stops_or_decodes ser i st :
  (exists e, __getitem__ ser i st = (Raise e, st))
  \/ (exists offset, __getitem__ ser i st = docbyoffset ser offset st).
Proof.
  unfold __getitem__, bind, get_index, raise. cbn [fst snd].
  destruct (is_None (index (fst st))); [left; eauto |].
  destruct (py_getitem (index (fst st)) i) as [offset | e]; [right | left]; eauto.
Qed.

Lemma save_reported ser fname D index_fname w0 w1 offsets :
  saveCorpus ser fname D w0 = (Ok offsets, w1) ->
  is_None offsets = false ->
  saveIndexedCorpus dumps ser fname D index_fname w0
  = (Ok tt, saved dumps ser (index_path fname index_fname) offsets w1).
Proof.
  intros Hsave Hsome. unfold saveIndexedCorpus, bind.
  rewrite Hsave, Hsome. reflexivity.
Qed.

Lemma save_unsupported ser fname D index_fname w0 w1 :
  saveCorpus ser fname D w0 = (Ok PyNone, w1) ->
  saveIndexedCorpus dumps ser fname D index_fname w0
  = (Raise (Exn NotImplementedError
              ("called saveIndexedCorpus on class " +:+ __name__ ser
               +:+ " which             doesn't support indexing!")), w1).
Proof.
  intros Hsave. unfold saveIndexedCorpus, bind. now rewrite Hsave.
Qed.

(** The index write touches one path. *)
Lemma saved_other_files ser path offsets w1 p :
  p <> path -> files (saved dumps ser path offsets w1) !! p = files w1 !! p.
Proof.
  intros Hp. unfold saved, write_file. cbn [files].
  now apply lookup_insert_ne.
Qed.

(** The default index path is never the storage path, so a save with the
    default leaves the storage file as the serializer wrote it. *)
Lemma default_index_path_differs fname : fname +:+ ".index" <> fname.
Proof.
  intros Heq. apply (f_equal String.length) in Heq.
  rewrite string_length_append in Heq. simpl in Heq. lia.
Qed.

Lemma init_loaded fname index_fname self w data v :
  files w !! index_path fname index_fname = Some data ->
  loads data = Ok v ->
  __init__ loads fname index_fname (self, w)
  = (Ok tt,
     ({| index := v; attrs := attrs self |},
      {| files := files w;
         log := (log w ++ ["loaded corpus index from " +:+ index_path fname index_fname])%list |})).
Proof.
  intros Hfile Hloads.
  unfold __init__, try_except, bind, in_world, unpickle, set_index, logging_info.
  fold (index_path fname index_fname). simpl.
  rewrite Hfile, Hloads. reflexivity.
Qed.

Lemma init_failed fname index_fname self w e w' :
  unpickle loads (index_path fname index_fname) w = (Raise e, w') ->
  __init__ loads fname index_fname (self, w)
  = (Ok tt, ({| index := PyNone; attrs := attrs self |}, w')).
Proof.
  intros Hfail.
  unfold __init__, try_except, bind, in_world.
  fold (index_path fname index_fname). simpl.
  rewrite Hfail. reflexivity.
Qed.

Lemma save_then_init ser fname index_fname D w0 w1 offsets self :
  saveCorpus ser fname D w0 = (Ok offsets, w1) ->
  is_None offsets = false ->
  loads (dumps offsets) = Ok offsets ->
  exists w2 w3,
    saveIndexedCorpus dumps ser fname D index_fname w0 = (Ok tt, w2) /\
    __init__ loads fname index_fname (self, w2)
    = (Ok tt, ({| index := offsets; attrs := attrs self |}, w3)) /\
    files w3 = <[index_path fname index_fname := dumps offsets]> (files w1).
Proof.
  intros Hsave Hsome Hrt.
  eexists _, _. split; [eapply save_reported; eassumption |]. split.
  - apply init_loaded with (data := dumps offsets); [| exact Hrt].
    unfold saved, write_file. simpl. apply lookup_insert_eq.
  - reflexivity.
Qed.

End Facts.

(** ** The claims *)

Section Claims.

Context {Doc Attrs : Type}.
Variable dumps : pyval -> string.
Variable loads : string -> result pyval.

Implicit Types (ser : Serializer Doc Attrs) (self : IndexedCorpus Attrs).
Implicit Types (w : World) (st : State Attrs) (D : list Doc).
Implicit Types (l : list pyval) (i : Z) (fname : string).

(** C1. On a handle whose index is a loaded list, a lookup with a
    document number [0 <= i < len(index)] is exactly [docbyoffset] on the
    offset stored at position [i].  And after a save followed by a load,
    if decoding the [k]-th reported offset gives back the [k]-th saved
    document, the lookup of [i] returns the [i]-th saved document. *)
Theorem getitem_decodes_indexed_offset ser :
  (forall self w l i,
      index self = PyList l ->
      0 <= i < Z.of_nat (length l) ->
      exists offset,
        l !! Z.to_nat i = Some offset /\
        __getitem__ ser i (self, w) = docbyoffset ser offset (self, w))
  /\
  (forall fname index_fname D w0 w1 offsets self st,
      saveCorpus ser fname D w0 = (Ok (PyList offsets), w1) ->
      length offsets = length D ->
      loads (dumps (PyList offsets)) = Ok (PyList offsets) ->
      st = snd (__init__ loads fname index_fname
                  (self, snd (saveIndexedCorpus dumps ser fname D index_fname w0))) ->
      (forall k offset d,
          offsets !! k = Some offset -> D !! k = Some d ->
          fst (docbyoffset ser offset st) = Ok d) ->
      forall i,
        0 <= i < Z.of_nat (length D) ->
        exists d, D !! Z.to_nat i = Some d /\ fst (__getitem__ ser i st) = Ok d).
Proof.
  split.
  - intros self w l i Hidx Hi.
    destruct (list_getitem_inside l i Hi) as [offset [Hlook Hget]].
    exists offset. split; [exact Hlook |].
    rewrite (getitem_list ser self w l i Hidx), Hget. reflexivity.
  - intros fname index_fname D w0 w1 offsets self st Hsave Hlen Hrt Hst Hdec i Hi.
    destruct (save_then_init dumps loads ser fname index_fname D w0 w1
                (PyList offsets) self Hsave eq_refl Hrt) as (w2 & w3 & Hs & Hinit & _).
    rewrite Hs in Hst. simpl in Hst. rewrite Hinit in Hst. simpl in Hst.
    destruct (list_getitem_inside offsets i) as [offset [Hlook Hget]]; [lia |].
    destruct (lookup_lt_is_Some_2 D (Z.to_nat i)) as [d Hd]; [lia |].
    exists d. split; [exact Hd |].
    subst st.
    rewrite (getitem_list ser {| index := PyList offsets; attrs := attrs self |}
               w3 offsets i eq_refl), Hget.
    exact (Hdec _ _ _ Hlook Hd).
Qed.

(** C2. When the serializer reports one offset per written document, a
    save followed by the construction of a handle on the same paths
    succeeds and leaves in the handle the very offsets reported at save
    time, so an index as long as the corpus. *)
Theorem save_then_load_restores_offsets ser fname index_fname D w0 w1 offsets self :
  saveCorpus ser fname D w0 = (Ok (PyList offsets), w1) ->
  length offsets = length D ->
  loads (dumps (PyList offsets)) = Ok (PyList offsets) ->
  exists w2 st,
    saveIndexedCorpus dumps ser fname D index_fname w0 = (Ok tt, w2) /\
    __init__ loads fname index_fname (self, w2) = (Ok tt, st) /\
    index (fst st) = PyList offsets /\
    exists l, index (fst st) = PyList l /\ length l = length D.
Proof.
  intros Hsave Hlen Hrt.
  destruct (save_then_init dumps loads ser fname index_fname D w0 w1
              (PyList offsets) self Hsave eq_refl Hrt) as (w2 & w3 & Hs & Hinit & _).
  exists w2. eexists. split; [exact Hs |]. split; [exact Hinit |].
  simpl. split; [reflexivity |]. exists offsets. split; [reflexivity | exact Hlen].
Qed.

(** C3, as amended. On a handle whose index is a loaded list of length
    [n], a lookup with [i < -n] or [i >= n] raises [IndexError], before
    [docbyoffset] is reached and with the state untouched. *)
Theorem getitem_out_of_range ser self w l i :
  index self = PyList l ->
  i < - Z.of_nat (length l) \/ i >= Z.of_nat (length l) ->
  __getitem__ ser i (self, w)
  = (Raise (Exn IndexError "list index out of range"), (self, w)).
Proof.
  intros Hidx Hi.
  rewrite (getitem_list ser self w l i Hidx).
  rewrite list_getitem_outside; [reflexivity | lia].
Qed.

(** C4. On a handle without index, whether the index was never there
    or did not load, every lookup raises [RuntimeError] with the message
    that an index is needed, whatever the document number. *)
Theorem getitem_without_index ser i :
  (forall self w,
      index self = PyNone ->
      __getitem__ ser i (self, w)
      = (Raise (Exn RuntimeError "cannot call corpus[docid] without an index"), (self, w)))
  /\
  (forall fname index_fname self w e w',
      unpickle loads (index_path fname index_fname) w = (Raise e, w') ->
      fst (__getitem__ ser i (snd (__init__ loads fname index_fname (self, w))))
      = Raise (Exn RuntimeError "cannot call corpus[docid] without an index")).
Proof.
  split.
  - intros self w Hidx. now apply getitem_no_index.
  - intros fname index_fname self w e w' Hfail.
    rewrite (init_failed loads fname index_fname self w e w' Hfail). cbn [snd].
    now rewrite getitem_no_index.
Qed.

(** C5. When the serializer's [saveCorpus] returns None,
    [saveIndexedCorpus] raises [NotImplementedError] with a message that
    carries the serializer's name, and the world is left as [saveCorpus]
    left it: nothing is written at the index path. *)
Theorem save_without_offsets_raises ser fname D index_fname w0 w1 :
  saveCorpus ser fname D w0 = (Ok PyNone, w1) ->
  exists e w2,
    saveIndexedCorpus dumps ser fname D index_fname w0 = (Raise e, w2) /\
    exn_cls e = NotImplementedError /\
    exn_msg e = "called saveIndexedCorpus on class " +:+ __name__ ser
                +:+ " which             doesn't support indexing!" /\
    w2 = w1 /\
    files w2 !! index_path fname index_fname = files w1 !! index_path fname index_fname.
Proof.
  intros Hsave. eexists _, w1.
  split; [exact (save_unsupported dumps ser fname D index_fname w0 w1 Hsave) |].
  repeat split.
Qed.

(** C6. The constructor never raises.  Whatever exception the
    deserialization of the index file ends in (a missing file, content
    that does not deserialize), the outcome is the same: a handle whose
    index is None. *)
Theorem init_absorbs_load_failure fname index_fname self w :
  (exists st, __init__ loads fname index_fname (self, w) = (Ok tt, st))
  /\
  (forall e w',
      unpickle loads (index_path fname index_fname) w = (Raise e, w') ->
      __init__ loads fname index_fname (self, w)
      = (Ok tt, ({| index := PyNone; attrs := attrs self |}, w')))
  /\
  (files w !! index_path fname index_fname = None ->
   __init__ loads fname index_fname (self, w)
   = (Ok tt, ({| index := PyNone; attrs := attrs self |}, w))).
Proof.
  split; [| split].
  - destruct (unpickle loads (index_path fname index_fname) w) as [[v | e] w'] eqn:Hun.
    + unfold unpickle in Hun.
      destruct (files w !! index_path fname index_fname) as [data |] eqn:Hfile;
        [| discriminate].
      injection Hun as Hloads <-.
      eexists. exact (init_loaded loads fname index_fname self w data v Hfile Hloads).
    + eexists. exact (init_failed loads fname index_fname self w e w' Hun).
  - intros e w' Hun. exact (init_failed loads fname index_fname self w e w' Hun).
  - intros Hfile.
    apply init_failed with
      (e := Exn IOError ("[Errno 2] No such file or directory: '"
                         +:+ index_path fname index_fname +:+ "'")).
    unfold unpickle. now rewrite Hfile.
Qed.

(** C7. Without an explicit index path, [saveIndexedCorpus] and the
    constructor both behave as if they had been given the storage path
    with [.index] appended: a save writes the offsets at that path, and
    the constructor loads what that very file holds. *)
Theorem default_index_path_agrees ser fname D :
  saveIndexedCorpus dumps ser fname D None
  = saveIndexedCorpus dumps ser fname D (Some (fname +:+ ".index"))
  /\
  __init__ (Attrs := Attrs) loads fname None
  = __init__ loads fname (Some (fname +:+ ".index"))
  /\
  (forall w0 w1 offsets self,
      saveCorpus ser fname D w0 = (Ok offsets, w1) ->
      is_None offsets = false ->
      exists w2,
        saveIndexedCorpus dumps ser fname D None w0 = (Ok tt, w2) /\
        files w2 !! (fname +:+ ".index") = Some (dumps offsets) /\
        (forall p, p <> fname +:+ ".index" -> files w2 !! p = files w1 !! p) /\
        index (fst (snd (__init__ loads fname None (self, w2))))
        = match loads (dumps offsets) with
          | Ok v => v
          | Raise _ => PyNone
          end).
Proof.
  split; [reflexivity |]. split; [reflexivity |].
  intros w0 w1 offsets self Hsave Hsome.
  exists (saved dumps ser (fname +:+ ".index") offsets w1).
  assert (Hfile : files (saved dumps ser (fname +:+ ".index") offsets w1)
                    !! index_path fname None = Some (dumps offsets))
    by apply lookup_insert_eq.
  split; [exact (save_reported dumps ser fname D None w0 w1 offsets Hsave Hsome) |].
  split; [exact Hfile |]. split.
  - intros p Hp. now apply saved_other_files.
  - destruct (loads (dumps offsets)) as [v | e] eqn:Hloads.
    + now rewrite (init_loaded loads fname None self _ _ v Hfile Hloads).
    + rewrite (init_failed loads fname None self _ e
                 (saved dumps ser (fname +:+ ".index") offsets w1)); [reflexivity |].
      unfold unpickle. now rewrite Hfile, Hloads.
Qed.

(** C8. As long as the inheriting class's [docbyoffset] does not
    assign [self.index], no lookup changes the handle's index, whether it
    returns or raises, and so no sequence of lookups does: a loaded
    index stays loaded, with the same offsets, and the lookup after a
    failed one finds the index it would have found before. *)
Theorem lookups_keep_index ser :
  decode_keeps_index ser ->
  (forall i st r st',
      __getitem__ ser i st = (r, st') -> index (fst st') = index (fst st))
  /\
  (forall docnos st,
      index (fst (lookups ser docnos st)) = index (fst st) /\
      is_None (index (fst (lookups ser docnos st))) = is_None (index (fst st)))
  /\
  (forall i st e st',
      __getitem__ ser i st = (Raise e, st') ->
      forall j, py_getitem (index (fst st')) j = py_getitem (index (fst st)) j).
Proof.
  intros Hdec.
  assert (Hstep : forall i st, index (fst (snd (__getitem__ ser i st))) = index (fst st)).
  { intros i st.
    destruct (getitem_stops_or_decodes ser i st) as [[e Hstop] | [offset Hcall]].
    - now rewrite Hstop.
    - rewrite Hcall. apply Hdec. }
  split; [| split].
  - intros i st r st' Hrun. rewrite <- (Hstep i st), Hrun. reflexivity.
  - assert (Hmany : forall docnos st, index (fst (lookups ser docnos st)) = index (fst st)).
    { induction docnos as [| docno rest IH]; intros st; [reflexivity |].
      cbn [lookups]. rewrite IH. apply Hstep. }
    intros docnos st. now rewrite Hmany.
  - intros i st e st' Hrun j. f_equal.
    rewrite <- (Hstep i st), Hrun. reflexivity.
Qed.

(** C9. Only None is the sign that the serializer does not index.
    When [saveCorpus] returns the empty list the save succeeds and the
    empty list is what the index file holds; and of all the values
    [saveCorpus] can return, None is the one that makes
    [saveIndexedCorpus] raise [NotImplementedError]. *)
Theorem save_empty_offsets_succeeds ser fname D index_fname w0 w1 :
  (saveCorpus ser fname D w0 = (Ok (PyList []), w1) ->
   exists w2,
     saveIndexedCorpus dumps ser fname D index_fname w0 = (Ok tt, w2) /\
     files w2 !! index_path fname index_fname = Some (dumps (PyList [])))
  /\
  (forall offsets,
      saveCorpus ser fname D w0 = (Ok offsets, w1) ->
      (raises (fst (saveIndexedCorpus dumps ser fname D index_fname w0)) NotImplementedError
       <-> offsets = PyNone) /\
      (offsets <> PyNone ->
       fst (saveIndexedCorpus dumps ser fname D index_fname w0) = Ok tt)).
Proof.
  split.
  - intros Hsave. eexists. split.
    + exact (save_reported dumps ser fname D index_fname w0 w1 _ Hsave eq_refl).
    + apply lookup_insert_eq.
  - intros offsets Hsave.
    destruct offsets as [| z | s | l].
    + rewrite (save_unsupported dumps ser fname D index_fname w0 w1 Hsave).
      split; [split; reflexivity | congruence].
    + rewrite (save_reported dumps ser fname D index_fname w0 w1 _ Hsave eq_refl).
      split; [split; [intros [] | discriminate] | reflexivity].
    + rewrite (save_reported dumps ser fname D index_fname w0 w1 _ Hsave eq_refl).
      split; [split; [intros [] | discriminate] | reflexivity].
    + rewrite (save_reported dumps ser fname D index_fname w0 w1 _ Hsave eq_refl).
      split; [split; [intros [] | discriminate] | reflexivity].
Qed.

(** C10. On a handle whose index is a loaded list of length [n], a
    lookup with [-n <= i < 0] does not raise [IndexError]: it is
    [docbyoffset] on the offset stored at position [n + i]. *)
Theorem getitem_negative_wraps ser self w l i :
  index self = PyList l ->
  - Z.of_nat (length l) <= i < 0 ->
  exists offset,
    l !! Z.to_nat (Z.of_nat (length l) + i) = Some offset /\
    __getitem__ ser i (self, w) = docbyoffset ser offset (self, w).
Proof.
  intros Hidx Hi.
  destruct (list_getitem_wraps l i Hi) as [offset [Hlook Hget]].
  exists offset. split; [exact Hlook |].
  rewrite (getitem_list ser self w l i Hidx), Hget. reflexivity.
Qed.

End Claims.

(** ** The claims on the line corpus

    Every statement above that has a premise is run once on
    [LineCorpus]: a corpus of three documents saved to [c.txt], the handle
    opened on it, and the variations the premises ask for. *)

Lemma getitem_decodes_indexed_offset_witness :
  __getitem__ LineCorpus.serializer 1 LineCorpus.handle3
  = docbyoffset LineCorpus.serializer (PyInt 6) LineCorpus.handle3
  /\ fst (__getitem__ LineCorpus.serializer 1 LineCorpus.handle3) = Ok "0:1.0 1:2.0".
Proof.
  pose proof (getitem_decodes_indexed_offset LineCorpus.dumps LineCorpus.loads
                LineCorpus.serializer) as [Hdelegates Hsaved].
  split.
  - destruct (Hdelegates (fst LineCorpus.handle3) (snd LineCorpus.handle3)
                [PyInt 0; PyInt 6; PyInt 18] 1 eq_refl ltac:(simpl; lia))
      as [offset [Hlook Hrun]].
    injection Hlook as <-. exact Hrun.
  - destruct (Hsaved "c.txt" None LineCorpus.corpus3 LineCorpus.empty_world
                (snd (LineCorpus.save_lines "c.txt" LineCorpus.corpus3 LineCorpus.empty_world))
                [PyInt 0; PyInt 6; PyInt 18] (LineCorpus.fresh "c.txt") LineCorpus.handle3
                eq_refl eq_refl eq_refl eq_refl) with (i := 1)
      as [d [Hd Hrun]].
    + intros [| [| [| k]]] offset d Hoff Hdoc; try discriminate;
        injection Hoff as <-; injection Hdoc as <-; reflexivity.
    + simpl; lia.
    + injection Hd as <-. exact Hrun.
Defined.

Lemma save_then_load_restores_offsets_witness :
  fst (saveIndexedCorpus LineCorpus.dumps LineCorpus.serializer "c.txt"
         LineCorpus.corpus3 None LineCorpus.empty_world) = Ok tt
  /\ index (fst LineCorpus.handle3) = PyList [PyInt 0; PyInt 6; PyInt 18].
Proof.
  destruct (save_then_load_restores_offsets LineCorpus.dumps LineCorpus.loads
              LineCorpus.serializer "c.txt" None LineCorpus.corpus3 LineCorpus.empty_world
              (snd (LineCorpus.save_lines "c.txt" LineCorpus.corpus3 LineCorpus.empty_world))
              [PyInt 0; PyInt 6; PyInt 18] (LineCorpus.fresh "c.txt")
              eq_refl eq_refl eq_refl)
    as (w2 & st & Hsave & Hinit & Hidx & _).
  split.
  - now rewrite Hsave.
  - unfold LineCorpus.handle3, LineCorpus.saved3. rewrite Hsave. cbn [snd].
    rewrite Hinit. exact Hidx.
Defined.

(** C3 as the specification has it fails: on the handle opened on the
    three saved documents, whose index is [[0, 6, 18]], the document number
    [-1] is below zero and the lookup returns the last document. *)
Lemma getitem_negative_docno_returns_document :
  index (fst LineCorpus.handle3) = PyList [PyInt 0; PyInt 6; PyInt 18]
  /\ (-1 < 0 \/ -1 >= Z.of_nat (length [PyInt 0; PyInt 6; PyInt 18]))
  /\ fst (__getitem__ LineCorpus.serializer (-1) LineCorpus.handle3) = Ok "2:7.0"
  /\ ~ raises (fst (__getitem__ LineCorpus.serializer (-1) LineCorpus.handle3)) IndexError.
Proof.
  split; [reflexivity |]. split; [left; lia |]. split; [reflexivity |].
  intros Hraises. exact Hraises.
Qed.

Lemma getitem_out_of_range_witness :
  __getitem__ LineCorpus.serializer 3 LineCorpus.handle3
  = (Raise (Exn IndexError "list index out of range"), LineCorpus.handle3)
  /\ __getitem__ LineCorpus.serializer (-4) LineCorpus.handle3
     = (Raise (Exn IndexError "list index out of range"), LineCorpus.handle3).
Proof.
  split.
  - apply (getitem_out_of_range LineCorpus.serializer (fst LineCorpus.handle3)
             (snd LineCorpus.handle3) [PyInt 0; PyInt 6; PyInt 18] 3);
      [reflexivity | simpl; lia].
  - apply (getitem_out_of_range LineCorpus.serializer (fst LineCorpus.handle3)
             (snd LineCorpus.handle3) [PyInt 0; PyInt 6; PyInt 18] (-4));
      [reflexivity | simpl; lia].
Defined.

Lemma getitem_without_index_witness :
  index (LineCorpus.fresh "c.txt") = PyNone
  /\ __getitem__ LineCorpus.serializer 0 (LineCorpus.fresh "c.txt", LineCorpus.saved3)
     = (Raise (Exn RuntimeError "cannot call corpus[docid] without an index"),
        (LineCorpus.fresh "c.txt", LineCorpus.saved3))
  /\ fst (__getitem__ LineCorpus.serializer 0
            (snd (__init__ LineCorpus.loads "c.txt" None
                    (LineCorpus.fresh "c.txt", LineCorpus.corrupt))))
     = Raise (Exn RuntimeError "cannot call corpus[docid] without an index").
Proof.
  pose proof (getitem_without_index (Attrs := string) LineCorpus.loads
                LineCorpus.serializer 0) as [Hnone Hfailed].
  split; [reflexivity |]. split.
  - apply Hnone. reflexivity.
  - apply (Hfailed "c.txt" None (LineCorpus.fresh "c.txt") LineCorpus.corrupt
             (Exn UnpicklingError "could not read the object") LineCorpus.corrupt).
    reflexivity.
Defined.

Lemma save_without_offsets_raises_witness :
  fst (saveIndexedCorpus LineCorpus.dumps LineCorpus.unindexed "c.txt"
         LineCorpus.corpus3 None LineCorpus.empty_world)
  = Raise (Exn NotImplementedError
             "called saveIndexedCorpus on class PlainCorpus which             doesn't support indexing!")
  /\ files (snd (saveIndexedCorpus LineCorpus.dumps LineCorpus.unindexed "c.txt"
                   LineCorpus.corpus3 None LineCorpus.empty_world)) !! "c.txt.index" = None.
Proof.
  destruct (save_without_offsets_raises LineCorpus.dumps LineCorpus.unindexed "c.txt"
              LineCorpus.corpus3 None LineCorpus.empty_world
              (snd (LineCorpus.save_lines_no_offsets "c.txt" LineCorpus.corpus3
                      LineCorpus.empty_world)) eq_refl)
    as (e & w2 & Hrun & Hcls & Hmsg & Hw & Hfile).
  rewrite Hrun. cbn [fst snd]. split.
  - destruct e as [cls msg]. simpl in Hcls, Hmsg. now rewrite Hcls, Hmsg.
  - rewrite Hw. reflexivity.
Defined.

Lemma init_absorbs_load_failure_witness :
  __init__ LineCorpus.loads "c.txt" None (LineCorpus.fresh "c.txt", LineCorpus.corrupt)
  = (Ok tt, (LineCorpus.fresh "c.txt", LineCorpus.corrupt))
  /\ __init__ LineCorpus.loads "c.txt" None (LineCorpus.fresh "c.txt", LineCorpus.empty_world)
     = (Ok tt, (LineCorpus.fresh "c.txt", LineCorpus.empty_world)).
Proof.
  split.
  - destruct (init_absorbs_load_failure LineCorpus.loads "c.txt" None
                (LineCorpus.fresh "c.txt") LineCorpus.corrupt) as (_ & Hraised & _).
    apply (Hraised (Exn UnpicklingError "could not read the object")).
    reflexivity.
  - destruct (init_absorbs_load_failure LineCorpus.loads "c.txt" None
                (LineCorpus.fresh "c.txt") LineCorpus.empty_world) as (_ & _ & Hmissing).
    apply Hmissing. reflexivity.
Defined.

Lemma default_index_path_agrees_witness :
  files LineCorpus.saved3 !! "c.txt.index" = Some "li0ei6ei18ee"
  /\ files LineCorpus.saved3 !! "c.txt"
     = files (snd (LineCorpus.save_lines "c.txt" LineCorpus.corpus3 LineCorpus.empty_world))
         !! "c.txt"
  /\ index (fst LineCorpus.handle3) = PyList [PyInt 0; PyInt 6; PyInt 18].
Proof.
  destruct (default_index_path_agrees LineCorpus.dumps LineCorpus.loads
              LineCorpus.serializer "c.txt" LineCorpus.corpus3) as (_ & _ & Hagree).
  destruct (Hagree LineCorpus.empty_world
              (snd (LineCorpus.save_lines "c.txt" LineCorpus.corpus3 LineCorpus.empty_world))
              (PyList [PyInt 0; PyInt 6; PyInt 18]) (LineCorpus.fresh "c.txt")
              eq_refl eq_refl)
    as (w2 & Hsave & Hfile & Hother & Hidx).
  unfold LineCorpus.handle3, LineCorpus.saved3. rewrite Hsave. cbn [snd].
  split; [exact Hfile |]. split; [apply Hother; discriminate | exact Hidx].
Defined.

Lemma line_corpus_decode_keeps_index : decode_keeps_index LineCorpus.serializer.
Proof.
  intros offset [self w]. cbn [docbyoffset LineCorpus.serializer].
  unfold LineCorpus.read_at. cbn [fst snd].
  destruct offset as [| z | s | l]; try reflexivity.
  destruct (z <? 0); [reflexivity |].
  now destruct (files w !! attrs self).
Defined.

Lemma lookups_keep_index_witness :
  index (fst (lookups LineCorpus.serializer [1; 7; -1; -9; 0] LineCorpus.handle3))
  = PyList [PyInt 0; PyInt 6; PyInt 18]
  /\ index (fst (lookups LineCorpus.serializer [0; 2]
                   (LineCorpus.fresh "c.txt", LineCorpus.saved3)))
     = PyNone.
Proof.
  destruct (lookups_keep_index LineCorpus.serializer line_corpus_decode_keeps_index)
    as (_ & Hmany & _).
  split.
  - rewrite (proj1 (Hmany [1; 7; -1; -9; 0] LineCorpus.handle3)). reflexivity.
  - rewrite (proj1 (Hmany [0; 2] (LineCorpus.fresh "c.txt", LineCorpus.saved3))). reflexivity.
Defined.

Lemma save_empty_offsets_succeeds_witness :
  fst (saveIndexedCorpus LineCorpus.dumps LineCorpus.serializer "c.txt" [] None
         LineCorpus.empty_world) = Ok tt
  /\ files (snd (saveIndexedCorpus LineCorpus.dumps LineCorpus.serializer "c.txt" [] None
                   LineCorpus.empty_world)) !! "c.txt.index" = Some "le"
  /\ (raises (fst (saveIndexedCorpus LineCorpus.dumps LineCorpus.unindexed "c.txt" [] None
                     LineCorpus.empty_world)) NotImplementedError
      <-> PyNone = PyNone).
Proof.
  split; [| split].
  - destruct (save_empty_offsets_succeeds LineCorpus.dumps LineCorpus.serializer "c.txt" []
                None LineCorpus.empty_world
                (snd (LineCorpus.save_lines "c.txt" [] LineCorpus.empty_world)))
      as [Hempty _].
    destruct (Hempty eq_refl) as (w2 & Hsave & _). now rewrite Hsave.
  - destruct (save_empty_offsets_succeeds LineCorpus.dumps LineCorpus.serializer "c.txt" []
                None LineCorpus.empty_world
                (snd (LineCorpus.save_lines "c.txt" [] LineCorpus.empty_world)))
      as [Hempty _].
    destruct (Hempty eq_refl) as (w2 & Hsave & Hfile). rewrite Hsave. exact Hfile.
  - destruct (save_empty_offsets_succeeds LineCorpus.dumps LineCorpus.unindexed "c.txt" []
                None LineCorpus.empty_world
                (snd (LineCorpus.save_lines_no_offsets "c.txt" [] LineCorpus.empty_world)))
      as [_ Honly].
    exact (proj1 (Honly PyNone eq_refl)).
Defined.

Lemma getitem_negative_wraps_witness :
  __getitem__ LineCorpus.serializer (-1) LineCorpus.handle3
  = docbyoffset LineCorpus.serializer (PyInt 18) LineCorpus.handle3
  /\ __getitem__ LineCorpus.serializer (-3) LineCorpus.handle3
     = docbyoffset LineCorpus.serializer (PyInt 0) LineCorpus.handle3.
Proof.
  split.
  - destruct (getitem_negative_wraps LineCorpus.serializer (fst LineCorpus.handle3)
                (snd LineCorpus.handle3) [PyInt 0; PyInt 6; PyInt 18] (-1)
                eq_refl ltac:(simpl; lia)) as [offset [Hlook Hrun]].
    injection Hlook as <-. exact Hrun.
  - destruct (getitem_negative_wraps LineCorpus.serializer (fst LineCorpus.handle3)
                (snd LineCorpus.handle3) [PyInt 0; PyInt 6; PyInt 18] (-3)
                eq_refl ltac:(simpl; lia)) as [offset [Hlook Hrun]].
    injection Hlook as <-. exact Hrun.
Defined.

(** ** Further properties of the three methods *)

Lemma is_None_false (v : pyval) : v <> PyNone -> is_None v = false.
Proof.
  destruct v; [congruence | reflexivity ..].
Qed.

Section Further.

Context {Doc Attrs : Type}.
Variable dumps : pyval -> string.
Variable loads : string -> result pyval.

Implicit Types (ser : Serializer Doc Attrs) (self : IndexedCorpus Attrs).
Implicit Types (w : World) (st : State Attrs) (D : list Doc).
Implicit Types (l : list pyval) (i : Z) (fname : string).

(** What the load inside the constructor returns leaves the world alone. *)
Lemma unpickle_world fname w : snd (unpickle loads fname w) = w.
Proof.
  unfold unpickle. now destruct (files w !! fname).
Qed.

(** X1. An exception raised by the serializer's [saveCorpus] leaves
    [saveIndexedCorpus] as it is, with the world as [saveCorpus] left it:
    nothing is logged and nothing is pickled. *)
Theorem save_propagates_serializer_error ser fname D index_fname w0 e w1 :
  saveCorpus ser fname D w0 = (Raise e, w1) ->
  saveIndexedCorpus dumps ser fname D index_fname w0 = (Raise e, w1).
Proof.
  intros Hsave. unfold saveIndexedCorpus, bind. now rewrite Hsave.
Qed.


(** X3. With the default index path a save leaves the storage file as
    the serializer wrote it; with the storage path given as index path the
    index takes the place of the corpus. *)
Theorem save_default_path_keeps_storage ser fname D w0 w1 offsets :
  saveCorpus ser fname D w0 = (Ok offsets, w1) ->
  offsets <> PyNone ->
  files (snd (saveIndexedCorpus dumps ser fname D None w0)) !! fname = files w1 !! fname
  /\ files (snd (saveIndexedCorpus dumps ser fname D (Some fname) w0)) !! fname
     = Some (dumps offsets).
Proof.
  intros Hsave Hsome. apply is_None_false in Hsome. split.
  - rewrite (save_reported dumps ser fname D None w0 w1 offsets Hsave Hsome). cbn [snd].
    apply saved_other_files. intros Heq. symmetry in Heq.
    exact (default_index_path_differs fname Heq).
  - rewrite (save_reported dumps ser fname D (Some fname) w0 w1 offsets Hsave Hsome).
    cbn [snd]. apply lookup_insert_eq.
Qed.

(** X4. The constructor looks at the index file and at nothing else: two
    constructions in worlds that agree on that file end with the same
    index, whatever the storage file holds and whatever [index] was
    before.  It writes no file and keeps the other attributes. *)
Theorem init_reads_only_the_index_file fname index_fname self self' w w' :
  files w !! index_path fname index_fname = files w' !! index_path fname index_fname ->
  index (fst (snd (__init__ loads fname index_fname (self, w))))
  = index (fst (snd (__init__ loads fname index_fname (self', w'))))
  /\ attrs (fst (snd (__init__ loads fname index_fname (self, w)))) = attrs self
  /\ files (snd (snd (__init__ loads fname index_fname (self, w)))) = files w.
Proof.
  intros Hsame.
  assert (Hrun : forall (s0 : IndexedCorpus Attrs) (w0 : World),
             exists v : pyval,
               (v = match files w0 !! index_path fname index_fname with
                    | Some data => match loads data with Ok v => v | Raise _ => PyNone end
                    | None => PyNone
                    end) /\
               index (fst (snd (__init__ loads fname index_fname (s0, w0)))) = v /\
               attrs (fst (snd (__init__ loads fname index_fname (s0, w0)))) = attrs s0 /\
               files (snd (snd (__init__ loads fname index_fname (s0, w0)))) = files w0).
  { intros s0 w0.
    destruct (files w0 !! index_path fname index_fname) as [data |] eqn:Hfile.
    - destruct (loads data) as [v | e] eqn:Hloads.
      + exists v. rewrite (init_loaded loads fname index_fname s0 w0 data v Hfile Hloads).
        repeat split.
      + exists PyNone.
        rewrite (init_failed loads fname index_fname s0 w0 e w0);
          [repeat split | unfold unpickle; now rewrite Hfile, Hloads].
    - exists PyNone.
      rewrite (init_failed loads fname index_fname s0 w0
                 (Exn IOError ("[Errno 2] No such file or directory: '"
                               +:+ index_path fname index_fname +:+ "'")) w0);
        [repeat split | unfold unpickle; now rewrite Hfile]. }
  destruct (Hrun self w) as (v & Hv & Hidx & Hattrs & Hfiles).
  destruct (Hrun self' w') as (v' & Hv' & Hidx' & _ & _).
  split; [| split; assumption].
  rewrite Hidx, Hidx', Hv, Hv', Hsame. reflexivity.
Qed.

(** X5. The constructor logs a loaded index and nothing else: when the
    index file deserializes, the log gains the line that names the index
    path; when the load raises, the log is as it was, the failure leaves
    no trace. *)
Theorem init_logs_only_a_loaded_index fname index_fname self w :
  (forall v,
      fst (unpickle loads (index_path fname index_fname) w) = Ok v ->
      log (snd (snd (__init__ loads fname index_fname (self, w))))
      = (log w ++ ["loaded corpus index from " +:+ index_path fname index_fname])%list)
  /\
  (forall e,
      fst (unpickle loads (index_path fname index_fname) w) = Raise e ->
      log (snd (snd (__init__ loads fname index_fname (self, w)))) = log w).
Proof.
  split.
  - intros v Hun. unfold unpickle in Hun.
    destruct (files w !! index_path fname index_fname) as [data |] eqn:Hfile;
      [| discriminate].
    cbn [fst] in Hun.
    now rewrite (init_loaded loads fname index_fname self w data v Hfile Hun).
  - intros e Hun.
    rewrite (init_failed loads fname index_fname self w e w); [reflexivity |].
    pose proof (unpickle_world (index_path fname index_fname) w) as Hw.
    destruct (unpickle loads (index_path fname index_fname) w) as [r w'].
    cbn [fst snd] in Hun, Hw. now subst.
Qed.

(** X6. The constructor keeps whatever object the index file
    deserializes to, list or not.  If that object is None the handle is
    the one of a failed load, and every lookup raises [RuntimeError]; if
    it is an integer every lookup raises [TypeError]. *)
Theorem init_keeps_whatever_was_pickled ser fname index_fname self w data v :
  files w !! index_path fname index_fname = Some data ->
  loads data = Ok v ->
  index (fst (snd (__init__ loads fname index_fname (self, w)))) = v
  /\ (v = PyNone ->
      forall i,
        fst (__getitem__ ser i (snd (__init__ loads fname index_fname (self, w))))
        = Raise (Exn RuntimeError "cannot call corpus[docid] without an index"))
  /\ (forall z, v = PyInt z ->
      forall i,
        raises (fst (__getitem__ ser i (snd (__init__ loads fname index_fname (self, w)))))
          TypeError).
Proof.
  intros Hfile Hloads.
  rewrite (init_loaded loads fname index_fname self w data v Hfile Hloads). cbn [fst snd].
  split; [reflexivity |]. split.
  - intros -> i. now rewrite getitem_no_index.
  - intros z -> i. unfold __getitem__, bind, get_index, raise. reflexivity.
Qed.

(** X7. Every document of a loaded index has two document numbers: for
    [0 <= i < n] the lookups of [i - n] and of [i] are the same call. *)
Theorem getitem_docno_aliases ser self w l i :
  index self = PyList l ->
  0 <= i < Z.of_nat (length l) ->
  __getitem__ ser (i - Z.of_nat (length l)) (self, w) = __getitem__ ser i (self, w).
Proof.
  intros Hidx Hi.
  rewrite !(getitem_list ser self w l _ Hidx).
  destruct (list_getitem_inside l i Hi) as [x [Hx ->]].
  destruct (list_getitem_wraps l (i - Z.of_nat (length l))) as [y [Hy ->]]; [lia |].
  replace (Z.of_nat (length l) + (i - Z.of_nat (length l))) with i in Hy by lia.
  rewrite Hx in Hy. now injection Hy as ->.
Qed.

(** X8. The index of an empty corpus is loaded and empty: after the save
    and the load every lookup raises [IndexError], not [RuntimeError], and
    [docbyoffset] is never called. *)
Theorem empty_index_rejects_every_docno ser fname index_fname D w0 w1 self i :
  saveCorpus ser fname D w0 = (Ok (PyList []), w1) ->
  loads (dumps (PyList [])) = Ok (PyList []) ->
  exists st,
    snd (__init__ loads fname index_fname
           (self, snd (saveIndexedCorpus dumps ser fname D index_fname w0))) = st /\
    index (fst st) = PyList [] /\
    __getitem__ ser i st = (Raise (Exn IndexError "list index out of range"), st).
Proof.
  intros Hsave Hrt.
  destruct (save_then_init dumps loads ser fname index_fname D w0 w1
              (PyList []) self Hsave eq_refl Hrt) as (w2 & w3 & Hs & Hinit & _).
  rewrite Hs. cbn [snd]. rewrite Hinit. cbn [snd].
  eexists. split; [reflexivity |]. split; [reflexivity |].
  rewrite (getitem_list ser {| index := PyList []; attrs := attrs self |} w3 [] i eq_refl).
  rewrite list_getitem_outside; [reflexivity | simpl; lia].
Qed.

(** X9. Lookups keep nothing between calls: when the inheriting class's
    [docbyoffset] leaves the state as it found it, so does every lookup and
    every sequence of lookups, and a lookup returns the same after any
    number of earlier lookups as it would have at first. *)
Theorem lookups_are_repeatable ser :
  decode_reads_only ser ->
  (forall i st, snd (__getitem__ ser i st) = st)
  /\ (forall docnos st, lookups ser docnos st = st)
  /\ (forall docnos i st,
         __getitem__ ser i (lookups ser docnos st) = __getitem__ ser i st).
Proof.
  intros Hro.
  assert (Hstep : forall i st, snd (__getitem__ ser i st) = st).
  { intros i st.
    destruct (getitem_stops_or_decodes ser i st) as [[e Hstop] | [offset Hcall]].
    - now rewrite Hstop.
    - rewrite Hcall. apply Hro. }
  assert (Hmany : forall docnos st, lookups ser docnos st = st).
  { induction docnos as [| docno rest IH]; intros st; [reflexivity |].
    cbn [lookups]. now rewrite Hstep. }
  split; [exact Hstep |]. split; [exact Hmany |].
  intros docnos i st. now rewrite Hmany.
Qed.


(** X11. A save that fails for want of offsets does not remove an index
    file that was there: if the serializer's write left an index file
    that deserializes, the next construction loads it, though the storage
    was rewritten. *)
Theorem unsupported_save_leaves_old_index ser fname D index_fname w0 w1 data v self :
  saveCorpus ser fname D w0 = (Ok PyNone, w1) ->
  files w1 !! index_path fname index_fname = Some data ->
  loads data = Ok v ->
  raises (fst (saveIndexedCorpus dumps ser fname D index_fname w0)) NotImplementedError
  /\ index (fst (snd (__init__ loads fname index_fname
                        (self, snd (saveIndexedCorpus dumps ser fname D index_fname w0)))))
     = v.
Proof.
  intros Hsave Hfile Hloads.
  rewrite (save_unsupported dumps ser fname D index_fname w0 w1 Hsave). cbn [fst snd].
  split; [reflexivity |].
  now rewrite (init_loaded loads fname index_fname self w1 data v Hfile Hloads).
Qed.

End Further.

(** ** The further properties on the line corpus *)

Lemma save_propagates_serializer_error_witness :
  saveIndexedCorpus LineCorpus.dumps LineCorpus.denied "c.txt" LineCorpus.corpus3 None
    LineCorpus.empty_world
  = (Raise (Exn IOError "[Errno 13] Permission denied: 'c.txt'"), LineCorpus.empty_world).
Proof.
  apply (save_propagates_serializer_error LineCorpus.dumps LineCorpus.denied "c.txt"
           LineCorpus.corpus3 None LineCorpus.empty_world).
  reflexivity.
Defined.


Lemma save_default_path_keeps_storage_witness :
  files LineCorpus.saved3 !! "c.txt"
  = Some (snd (LineCorpus.write_lines 0 LineCorpus.corpus3))
  /\ files (snd (saveIndexedCorpus LineCorpus.dumps LineCorpus.serializer "c.txt"
                   LineCorpus.corpus3 (Some "c.txt") LineCorpus.empty_world)) !! "c.txt"
     = Some "li0ei6ei18ee".
Proof.
  destruct (save_default_path_keeps_storage LineCorpus.dumps LineCorpus.serializer
              "c.txt" LineCorpus.corpus3 LineCorpus.empty_world
              (snd (LineCorpus.save_lines "c.txt" LineCorpus.corpus3 LineCorpus.empty_world))
              (PyList [PyInt 0; PyInt 6; PyInt 18]) eq_refl ltac:(discriminate))
    as [Hkept Hreplaced].
  split; [| exact Hreplaced].
  unfold LineCorpus.saved3. rewrite Hkept. reflexivity.
Defined.

Lemma init_reads_only_the_index_file_witness :
  index (fst (snd (__init__ LineCorpus.loads "c.txt" None
                     ({| index := PyInt 7; attrs := "c.txt" |}, LineCorpus.storage_emptied))))
  = PyList [PyInt 0; PyInt 6; PyInt 18].
Proof.
  destruct (init_reads_only_the_index_file LineCorpus.loads "c.txt" None
              {| index := PyInt 7; attrs := "c.txt" |} (LineCorpus.fresh "c.txt")
              LineCorpus.storage_emptied LineCorpus.saved3 eq_refl)
    as (Hsame & _ & _).
  rewrite Hsame. reflexivity.
Defined.

Lemma init_logs_only_a_loaded_index_witness :
  log (snd LineCorpus.handle3)
  = ["saving LineCorpus index to c.txt.index"; "loaded corpus index from c.txt.index"]
  /\ log (snd (snd (__init__ LineCorpus.loads "c.txt" None
                      (LineCorpus.fresh "c.txt", LineCorpus.corrupt))))
     = ["saving LineCorpus index to c.txt.index"].
Proof.
  split.
  - destruct (init_logs_only_a_loaded_index LineCorpus.loads "c.txt" None
                (LineCorpus.fresh "c.txt") LineCorpus.saved3) as [Hloaded _].
    unfold LineCorpus.handle3.
    rewrite (Hloaded (PyList [PyInt 0; PyInt 6; PyInt 18]) eq_refl). reflexivity.
  - destruct (init_logs_only_a_loaded_index LineCorpus.loads "c.txt" None
                (LineCorpus.fresh "c.txt") LineCorpus.corrupt) as [_ Hfailed].
    rewrite (Hfailed (Exn UnpicklingError "could not read the object") eq_refl).
    reflexivity.
Defined.

Lemma init_keeps_whatever_was_pickled_witness :
  fst (__getitem__ LineCorpus.serializer 0
         (snd (__init__ LineCorpus.loads "c.txt" None
                 (LineCorpus.fresh "c.txt", LineCorpus.with_index_file "n"))))
  = Raise (Exn RuntimeError "cannot call corpus[docid] without an index")
  /\ index (fst (snd (__init__ LineCorpus.loads "c.txt" None
                        (LineCorpus.fresh "c.txt", LineCorpus.with_index_file "i5e"))))
     = PyInt 5
  /\ raises (fst (__getitem__ LineCorpus.serializer 0
                    (snd (__init__ LineCorpus.loads "c.txt" None
                            (LineCorpus.fresh "c.txt", LineCorpus.with_index_file "i5e")))))
       TypeError.
Proof.
  split; [| split].
  - destruct (init_keeps_whatever_was_pickled LineCorpus.loads LineCorpus.serializer
                "c.txt" None (LineCorpus.fresh "c.txt") (LineCorpus.with_index_file "n")
                "n" PyNone eq_refl eq_refl) as (_ & Hnone & _).
    exact (Hnone eq_refl 0).
  - destruct (init_keeps_whatever_was_pickled LineCorpus.loads LineCorpus.serializer
                "c.txt" None (LineCorpus.fresh "c.txt") (LineCorpus.with_index_file "i5e")
                "i5e" (PyInt 5) eq_refl eq_refl) as (Hidx & _ & _).
    exact Hidx.
  - destruct (init_keeps_whatever_was_pickled LineCorpus.loads LineCorpus.serializer
                "c.txt" None (LineCorpus.fresh "c.txt") (LineCorpus.with_index_file "i5e")
                "i5e" (PyInt 5) eq_refl eq_refl) as (_ & _ & Hint).
    exact (Hint 5 eq_refl 0).
Defined.

Lemma getitem_docno_aliases_witness :
  __getitem__ LineCorpus.serializer (-2) LineCorpus.handle3
  = __getitem__ LineCorpus.serializer 1 LineCorpus.handle3.
Proof.
  apply (getitem_docno_aliases LineCorpus.serializer (fst LineCorpus.handle3)
           (snd LineCorpus.handle3) [PyInt 0; PyInt 6; PyInt 18] 1);
    [reflexivity | simpl; lia].
Defined.

Lemma empty_index_rejects_every_docno_witness :
  fst (__getitem__ LineCorpus.serializer 0
         (snd (__init__ LineCorpus.loads "c.txt" None
                 (LineCorpus.fresh "c.txt",
                  snd (saveIndexedCorpus LineCorpus.dumps LineCorpus.serializer "c.txt" []
                         None LineCorpus.empty_world)))))
  = Raise (Exn IndexError "list index out of range").
Proof.
  destruct (empty_index_rejects_every_docno LineCorpus.dumps LineCorpus.loads
              LineCorpus.serializer "c.txt" None [] LineCorpus.empty_world
              (snd (LineCorpus.save_lines "c.txt" [] LineCorpus.empty_world))
              (LineCorpus.fresh "c.txt") 0 eq_refl eq_refl)
    as (st & Hst & _ & Hrun).
  rewrite Hst, Hrun. reflexivity.
Defined.

Lemma line_corpus_decode_reads_only : decode_reads_only LineCorpus.serializer.
Proof.
  intros offset st. cbn [docbyoffset LineCorpus.serializer].
  unfold LineCorpus.read_at.
  destruct offset as [| z | s | l]; try reflexivity.
  destruct (z <? 0); [reflexivity |].
  now destruct (files (snd st) !! attrs (fst st)).
Defined.

Lemma lookups_are_repeatable_witness :
  lookups LineCorpus.serializer [2; 9; -1] LineCorpus.handle3 = LineCorpus.handle3
  /\ fst (__getitem__ LineCorpus.serializer 1
            (lookups LineCorpus.serializer [2; 9; -1] LineCorpus.handle3))
     = Ok "0:1.0 1:2.0".
Proof.
  destruct (lookups_are_repeatable LineCorpus.serializer line_corpus_decode_reads_only)
    as (_ & Hmany & Hsame).
  split.
  - exact (Hmany [2; 9; -1] LineCorpus.handle3).
  - rewrite (Hsame [2; 9; -1] 1 LineCorpus.handle3). reflexivity.
Defined.


Lemma unsupported_save_leaves_old_index_witness :
  index (fst (snd (__init__ LineCorpus.loads "c.txt" None
                     (LineCorpus.fresh "c.txt",
                      snd (saveIndexedCorpus LineCorpus.dumps LineCorpus.unindexed "c.txt"
                             ["9:9"] None LineCorpus.saved3)))))
  = PyList [PyInt 0; PyInt 6; PyInt 18].
Proof.
  destruct (unsupported_save_leaves_old_index LineCorpus.dumps LineCorpus.loads
              LineCorpus.unindexed "c.txt" ["9:9"] None LineCorpus.saved3
              (snd (LineCorpus.save_lines_no_offsets "c.txt" ["9:9"] LineCorpus.saved3))
              "li0ei6ei18ee" (PyList [PyInt 0; PyInt 6; PyInt 18]) (LineCorpus.fresh "c.txt")
              eq_refl eq_refl eq_refl)
    as [_ Hidx].
  exact Hidx.
Defined.
